(** * scripts/zulip_emoji_merge_delegate.py

    A shallow embedding of the script that keeps the emoji reactions of the
    "PR reviews" channel in step with the label of a pull request, and the
    properties of its pull-request matching and of its reaction
    reconciliation. *)

From Stdlib Require Import NArith ZArith List Ascii String Bool Lia.
From stdpp Require Import base option list gmap sets strings.

Set Warnings "-clear-no-such-hyp".

Open Scope N_scope.

(** ** Python strings

    A Python [str] is a sequence of Unicode code points. *)

Abbreviation str := (list N).

Definition ord (a : ascii) : N := N_of_ascii a.

(** The [str] written by a literal of the source. *)
Definition py (s : string) : str := ord <$> list_ascii_of_string s.

(** [c in chars] for a one-character string [c]. *)
Definition char_in (c : N) (chars : str) : bool := bool_decide (c ∈ chars).

(** [s.startswith(prefix)] *)
Definition startswith (s prefix : str) : bool := bool_decide (prefix `prefix_of` s).

(** [needle in haystack] for two strings: [needle] occurs as a contiguous
    run of characters of [haystack]. *)
Definition occurs_in (needle haystack : str) : Prop :=
  ∃ before after, haystack = before ++ needle ++ after.

(** ** The [re] module

    The model follows CPython's [re] (3.7 and later): [escape] is
    [str.translate] over the table of special characters, [compile] follows
    the loop of [sre_parse._parse] over the tokens of [Tokenizer], and
    [search] tries every start position. The syntax modelled is literals,
    backslash escapes of non-alphanumeric characters, [.], [^], [$], [|],
    capturing groups and the repeats [*], [+], [?] with their lazy forms;
    on anything else (character sets, counted repeats, escapes with a letter
    or a digit, group extensions) [compile] gives [Unmodelled]. *)

Module re.

(** [_special_chars_map]: the keys of the translation table of [re.escape],
    [b'()[]{}?*+-|^$\\.&~# \t\n\r\v\f']. *)
Definition special_chars : str :=
  py "()[]{}?*+-|^$\.&~# " ++ [9; 10; 13; 11; 12].

(** [re.escape(pattern)]: [pattern.translate(_special_chars_map)], every
    special character is replaced by a backslash and itself. *)
Definition escape (pattern : str) : str :=
  c ← pattern; if char_in c special_chars then [ord "\"; c] else [c].

(** [sre_parse.SPECIAL_CHARS], [REPEAT_CHARS], [ASCII_LETTERS], [DIGITS]. *)
Definition SPECIAL_CHARS : str := py ".\[{()*+?^$|".
Definition REPEAT_CHARS : str := py "*+?{".
Definition DIGITS : str := py "0123456789".
Definition ASCII_LETTERS : str :=
  py "abcdefghijklmnopqrstuvwxyzABCDEFGHIJKLMNOPQRSTUVWXYZ".

(** The repeats [?], [*] and [+]: (min, max) is (0, 1), (0, MAXREPEAT) and
    (1, MAXREPEAT). *)
Inductive repeat : Type := ZeroOrOne | ZeroOrMore | OneOrMore.

(** Parsed patterns, after the opcodes of [sre_parse]. A sequence of items
    is a chain of [Seq] closed by [Empty]; a [BRANCH] of several
    alternatives is nested to the right. *)
Inductive regex : Type :=
| Empty
| LITERAL (c : N)
| ANY
| AT_BEGINNING
| AT_END
| Seq (r1 r2 : regex)
| BRANCH (r1 r2 : regex)
| MAX_REPEAT (q : repeat) (r : regex)
| SUBPATTERN (r : regex).

Inductive parse_result : Type :=
| Compiled (r : regex)
| BadPattern      (* [re.error] *)
| Unmodelled.     (* syntax outside the fragment *)

(** The subpattern under construction: the alternatives closed so far by a
    [|] and the items of the current one, both most recent first. *)
Record frame : Type := Frame { alts : list regex; items : list regex }.

Definition sequence (its : list regex) : regex := foldr Seq Empty its.

Fixpoint branch (first : regex) (rest : list regex) : regex :=
  match rest with
  | [] => first
  | r :: rest' => BRANCH first (branch r rest')
  end.

(** What [_parse_sub] returns for a finished subpattern: the only
    alternative, or a [BRANCH] of all of them. *)
Definition close_frame (f : frame) : regex :=
  match rev (sequence (rev (items f)) :: alts f) with
  | [] => Empty
  | r :: rest => branch r rest
  end.

Definition append (it : regex) (f : frame) : frame :=
  Frame (alts f) (it :: items f).

Definition is_AT (r : regex) : bool :=
  match r with AT_BEGINNING | AT_END => true | _ => false end.

Definition is_REPEAT (r : regex) : bool :=
  match r with MAX_REPEAT _ _ => true | _ => false end.

Definition repeat_of (c : N) : repeat :=
  if c =? ord "?" then ZeroOrOne
  else if c =? ord "*" then ZeroOrMore
  else OneOrMore.

(** [sre_parse.parse]: the loop of [_parse] over the pattern, one token at a
    time, with the enclosing groups on [stack]. [lazy] holds right after a
    repeat, where a [?] marks it as lazy (the same matches exist, in another
    order of preference). *)
Fixpoint parse (p : str) (stack : list frame) (cur : frame) (lazy : bool)
  : parse_result :=
  match p with
  | [] =>
      match stack with
      | [] => Compiled (close_frame cur)
      | _ :: _ => BadPattern            (* missing ), unterminated subpattern *)
      end
  | this :: p' =>
      if this =? ord "\" then
        match p' with
        | [] => BadPattern              (* bad escape (end of pattern) *)
        | c :: p'' =>
            if char_in c ASCII_LETTERS || char_in c DIGITS then Unmodelled
            else parse p'' stack (append (LITERAL c) cur) false
        end
      else if negb (char_in this SPECIAL_CHARS) then
        parse p' stack (append (LITERAL this) cur) false
      else if this =? ord "[" then Unmodelled
      else if char_in this REPEAT_CHARS then
        if this =? ord "{" then Unmodelled
        else if lazy then
          if this =? ord "?" then parse p' stack cur false
          else if this =? ord "+" then Unmodelled   (* possessive from 3.11 *)
          else BadPattern               (* multiple repeat *)
        else
          match items cur with
          | [] => BadPattern            (* nothing to repeat *)
          | item :: its =>
              if is_AT item then BadPattern          (* nothing to repeat *)
              else if is_REPEAT item then BadPattern (* multiple repeat *)
              else parse p' stack
                     (Frame (alts cur) (MAX_REPEAT (repeat_of this) item :: its))
                     true
          end
      else if this =? ord "." then parse p' stack (append ANY cur) false
      else if this =? ord "(" then
        match p' with
        | c :: _ =>
            if c =? ord "?" then Unmodelled
            else parse p' (cur :: stack) (Frame [] []) false
        | [] => parse p' (cur :: stack) (Frame [] []) false
        end
      else if this =? ord ")" then
        match stack with
        | [] => BadPattern              (* unbalanced parenthesis *)
        | outer :: stack' =>
            parse p' stack' (append (SUBPATTERN (close_frame cur)) outer) false
        end
      else if this =? ord "|" then
        parse p' stack (Frame (sequence (rev (items cur)) :: alts cur) []) false
      else if this =? ord "^" then parse p' stack (append AT_BEGINNING cur) false
      else if this =? ord "$" then parse p' stack (append AT_END cur) false
      else BadPattern
  end.

(** [re.compile(pattern)], with no flags. *)
Definition compile (pattern : str) : parse_result :=
  parse pattern [] (Frame [] []) false.

(** Matching: [matches r bos s k] holds when [r] matches a prefix of [s] and
    [k] accepts what follows; [bos] tells whether [s] starts at the very
    beginning of the searched string. An iteration of a repeat that consumes
    nothing is not taken again. *)
Fixpoint matches (r : regex) (bos : bool) (s : str) (k : bool → str → bool)
  {struct r} : bool :=
  match r with
  | Empty => k bos s
  | LITERAL c =>
      match s with
      | c' :: s' => (c' =? c) && k false s'
      | [] => false
      end
  | ANY =>
      match s with
      | c' :: s' => negb (c' =? 10) && k false s'
      | [] => false
      end
  | AT_BEGINNING => bos && k bos s
  | AT_END =>
      match s with
      | [] => k bos s
      | c' :: [] => (c' =? 10) && k bos s
      | _ => false
      end
  | Seq r1 r2 => matches r1 bos s (λ bos' s', matches r2 bos' s' k)
  | BRANCH r1 r2 => matches r1 bos s k || matches r2 bos s k
  | SUBPATTERN r' => matches r' bos s k
  | MAX_REPEAT q r' =>
      let fix more (fuel : nat) (b : bool) (t : str) : bool :=
        k b t ||
        match fuel with
        | O => false
        | S fuel' =>
            matches r' b t
              (λ b' t', (length t' <? length t)%nat && more fuel' b' t')
        end in
      match q with
      | ZeroOrOne => matches r' bos s k || k bos s
      | ZeroOrMore => more (length s) bos s
      | OneOrMore => matches r' bos s (λ b' t', more (length t') b' t')
      end
  end.

(** [pattern.search(string)] scans the string for the first position where
    the pattern matches; the result is the truth value of the match object. *)
Fixpoint search_from (r : regex) (bos : bool) (s : str) : bool :=
  matches r bos s (λ _ _, true) ||
  match s with
  | [] => false
  | _ :: s' => search_from r false s'
  end.

Definition search (r : regex) (string : str) : bool := search_from r true string.

End re.

(** ** The Zulip client

    Messages as [client.get_messages] returns them: dictionaries with the
    keys [id], [content] and [reactions], each reaction a dictionary with
    (among others) the key [emoji_name]. *)

Record reaction : Type := Reaction { emoji_name : str; user_id : Z }.

Record message : Type :=
  Message { id : Z; content : str; reactions : list reaction }.

(** The requests that change the server. *)
Inductive call : Type :=
| remove_reaction_call (message_id : Z) (emoji_name : str)
| add_reaction_call (message_id : Z) (emoji_name : str).

(** What running a piece of the script comes to: its value, or [None] when
    an exception ended it; the reactions on the server afterwards, per
    message id; and the requests it sent, in order. *)
Record outcome (A : Type) : Type :=
  Outcome { result : option A; server : gmap Z (gset str); issued : list call }.
Arguments Outcome {A}.
Arguments result {A}.
Arguments server {A}.
Arguments issued {A}.

Definition M (A : Type) : Type := gmap Z (gset str) → outcome A.

#[global] Instance M_ret : MRet M := λ A a srv, Outcome (Some a) srv [].

#[global] Instance M_bind : MBind M := λ A B f m srv,
  let o := m srv in
  match result o with
  | Some a =>
      let o' := f a (server o) in
      Outcome (result o') (server o') (issued o ++ issued o')
  | None => Outcome None (server o) (issued o)
  end.

Definition raise {A} : M A := λ srv, Outcome None srv [].

(** Modelled from the spec: the chat service behind [client.remove_reaction]
    and [client.add_reaction]. A reaction is present or absent per message
    and emoji name; removing an absent reaction and adding a present one are
    tolerated and change nothing, as is a request for a message the server
    does not have; the value the client returns is not consumed. *)
Definition remove_reaction (message_id : Z) (emoji_name : str) : M () :=
  λ srv, Outcome (Some ())
           (alter (λ present, present ∖ {[emoji_name]}) message_id srv)
           [remove_reaction_call message_id emoji_name].

Definition add_reaction (message_id : Z) (emoji_name : str) : M () :=
  λ srv, Outcome (Some ())
           (alter (λ present, present ∪ {[emoji_name]}) message_id srv)
           [add_reaction_call message_id emoji_name].

(** [re.compile] inside the script: an [re.error] ends the script. A pattern
    outside the model is treated alike; line 39 builds none
    ([compile_pr_pattern] below). *)
Definition re_compile (pattern : str) : M re.regex :=
  match re.compile pattern with
  | re.Compiled r => mret r
  | _ => raise
  end.

(** [for x in l: body] *)
Fixpoint for_each {A} (l : list A) (body : A → M ()) : M () :=
  match l with
  | [] => mret ()
  | x :: l' => body x;; for_each l' body
  end.

(** [if b: body] with no [else]. *)
Definition when (b : bool) (body : M ()) : M () := if b then body else mret ().

(** [any(f(x) for x in l)] *)
Definition any {A} (f : A → bool) (l : list A) : bool := existsb f l.

(** ** The script *)

(** The raw string in front of [re.escape(pr_number)], line 39. *)
Definition pull_url_pattern : str :=
  py "https://github\.com/leanprover-community/mathlib4/pull/".

(** Lines 51-104: the body of [if match:], for the matched [message]. The
    prints and the unused [pr_url] have no part in the requests. *)
Definition reconcile (LABEL : str) (message : message) : M () :=
  let reactions := reactions message in
  let has_peace_sign :=
    any (λ reaction, bool_decide (emoji_name reaction = py "peace_sign")) reactions in
  let has_bors :=
    any (λ reaction, bool_decide (emoji_name reaction = py "bors")) reactions in
  let has_merge :=
    any (λ reaction, bool_decide (emoji_name reaction = py "merge")) reactions in
  let labels := [LABEL] in
  remove_reaction (id message) (py "peace_sign");;
  remove_reaction (id message) (py "bors");;
  remove_reaction (id message) (py "merge");;
  if bool_decide (py "delegated" ∈ labels) then
    add_reaction (id message) (py "peace_sign")
  else if bool_decide (py "ready-to-merge" ∈ labels) then
    when has_peace_sign (remove_reaction (id message) (py "peace_sign"));;
    add_reaction (id message) (py "bors")
  else if startswith LABEL (py "[Merged by Bors]") then
    when has_peace_sign (remove_reaction (id message) (py "peace_sign"));;
    when has_bors (remove_reaction (id message) (py "bors"));;
    add_reaction (id message) (py "merge")
  else mret ().

(** Lines 38-104, from the messages of the response on. *)
Definition script (LABEL pr_number : str) (messages : list message) : M () :=
  pr_pattern ← re_compile (pull_url_pattern ++ re.escape pr_number);
  for_each messages (λ message,
    let content := content message in
    let match_ := re.search pr_pattern content in
    when match_ (reconcile LABEL message)).

(** The script with the removals guarded by [has_peace_sign] and [has_bors]
    (lines 81-85 and 91-100) deleted. *)
Definition reconcile_without_guarded_removals (LABEL : str) (message : message)
  : M () :=
  let labels := [LABEL] in
  remove_reaction (id message) (py "peace_sign");;
  remove_reaction (id message) (py "bors");;
  remove_reaction (id message) (py "merge");;
  if bool_decide (py "delegated" ∈ labels) then
    add_reaction (id message) (py "peace_sign")
  else if bool_decide (py "ready-to-merge" ∈ labels) then
    add_reaction (id message) (py "bors")
  else if startswith LABEL (py "[Merged by Bors]") then
    add_reaction (id message) (py "merge")
  else mret ().

Definition script_without_guarded_removals (LABEL pr_number : str)
  (messages : list message) : M () :=
  pr_pattern ← re_compile (pull_url_pattern ++ re.escape pr_number);
  for_each messages (λ message,
    let content := content message in
    let match_ := re.search pr_pattern content in
    when match_ (reconcile_without_guarded_removals LABEL message)).

(** Whether the script takes [content] for a message about the pull
    request: the test of line 47. *)
Definition link_matches (pr_number content : str) : bool :=
  match re.compile (pull_url_pattern ++ re.escape pr_number) with
  | re.Compiled pr_pattern => re.search pr_pattern content
  | _ => false
  end.

(** The link of a pull request, before its number. *)
Definition pull_url : str :=
  py "https://github.com/leanprover-community/mathlib4/pull/".

(** ** Vocabulary of the statements *)

(** The three status reactions. *)
Definition status_reactions : gset str :=
  {[ py "peace_sign"; py "bors"; py "merge" ]}.

(** The reaction a label calls for, none for a label of no branch. *)
Definition reaction_for (LABEL : str) : gset str :=
  if bool_decide (LABEL = py "delegated") then {[ py "peace_sign" ]}
  else if bool_decide (LABEL = py "ready-to-merge") then {[ py "bors" ]}
  else if startswith LABEL (py "[Merged by Bors]") then {[ py "merge" ]}
  else ∅.

(** The reactions of a message after its reconciliation, from those before. *)
Definition reconciled (LABEL : str) (present : gset str) : gset str :=
  (present ∖ status_reactions) ∪ reaction_for LABEL.

Definition is_add (c : call) : bool :=
  match c with add_reaction_call _ _ => true | remove_reaction_call _ _ => false end.

(** The second fetch of the same messages: ids and contents as before, the
    reactions as the server has them by then. *)
Definition same_messages (messages messages' : list message) : Prop :=
  Forall2 (λ m m', id m' = id m ∧ content m' = content m) messages messages'.

(** [re.compile(pattern).search(string)], as a truth value; [None] where the
    pattern does not compile. *)
Definition found (pattern string : str) : option bool :=
  match re.compile pattern with
  | re.Compiled r => Some (re.search r string)
  | _ => None
  end.

(** ** Sample runs *)

Definition link_to (number : string) : str := pull_url ++ py number.

Definition about_123 : message :=
  Message 1 (py "please review " ++ link_to "123") [Reaction (py "bors") 7].
Definition about_12 : message :=
  Message 2 (link_to "12" ++ py " is ready") [Reaction (py "peace_sign") 7].
Definition again_12 : message :=
  Message 3 (py "ping " ++ link_to "12") [Reaction (py "merge") 7; Reaction (py "tada") 8].
Definition chatter : message := Message 4 (py "good morning") [].

Definition sample_server : gmap Z (gset str) :=
  {[ 1%Z := {[ py "bors" ]};
     2%Z := {[ py "peace_sign" ]};
     3%Z := {[ py "merge"; py "tada" ]};
     4%Z := ∅ ]}.

(** ** The start of the script: arguments and response *)

(** The values the script can meet in the dictionary that
    [client.get_messages] returns: strings (under [result], [msg], [code])
    and the list of messages (under [messages]). *)
Inductive value : Type :=
| JString (s : str)
| JArray (l : list message).

(** [sys.argv[i]]: an [IndexError] when there is no such argument. *)
Definition argv_item (argv : list str) (i : nat) : M str :=
  match argv !! i with
  | Some a => mret a
  | None => raise
  end.

(** [response[key]]: a [KeyError] when the dictionary has no such key. *)
Definition getitem (response : gmap str value) (key : str) : M value :=
  match response !! key with
  | Some v => mret v
  | None => raise
  end.

(** Lines 11-104: the whole file, from the arguments of the command line and
    the dictionary that [client.get_messages] gave back (lines 29-34). The
    prints and the construction of the client send nothing. Over a string
    the loop would take one character at a time, and [message['content']] on
    a character is a [TypeError]. *)
Definition main (argv : list str) (response : gmap str value) : M () :=
  ZULIP_API_KEY ← argv_item argv 1;
  ZULIP_EMAIL ← argv_item argv 2;
  ZULIP_SITE ← argv_item argv 3;
  LABEL ← argv_item argv 4;
  pr_number ← argv_item argv 5;
  messages ← getitem response (py "messages");
  match messages with
  | JArray l => script LABEL pr_number l
  | JString s =>
      pr_pattern ← re_compile (pull_url_pattern ++ re.escape pr_number);
      match s with
      | [] => mret ()
      | _ :: _ => raise
      end
  end.

(** The message and the emoji a request is about. *)
Definition message_id_of (c : call) : Z :=
  match c with
  | remove_reaction_call i _ | add_reaction_call i _ => i
  end.

Definition emoji_name_of (c : call) : str :=
  match c with
  | remove_reaction_call _ e | add_reaction_call _ e => e
  end.

(** The fetched messages that the script takes for the pull request. *)
Definition matching (pr_number : str) (messages : list message) : list message :=
  filter (λ m, link_matches pr_number (content m) = true) messages.


Definition sample_argv (label number : string) : list str :=
  [py "zulip_emoji_merge_delegate.py"; py "key"; py "bot@example.org";
   py "https://chat.example.org"; py label; py number].

Definition sample_response : gmap str value :=
  {[ py "result" := JString (py "success");
     py "messages" := JArray [about_123; about_12; chatter] ]}.

Definition error_response : gmap str value :=
  {[ py "result" := JString (py "error");
     py "msg" := JString (py "Invalid API key") ]}.

(** * Properties *)

(** ** The model of [re] at work *)

Example dot_matches_any_character : found (py "a.c") (py "xxabcxx") = Some true.
Proof. reflexivity. Qed.

Example escaped_dot_is_a_dot :
  found (py "a\.c") (py "xxabcxx") = Some false ∧
  found (py "a\.c") (py "xxa.cxx") = Some true.
Proof. split; reflexivity. Qed.

Example anchors_groups_and_repeats :
  found (py "^(a|b)*c$") (py "ababc") = Some true ∧
  found (py "^(a|b)*c$") (py "ababcd") = Some false ∧
  found (py "x+y?z") (py "aaxxz") = Some true ∧
  found (py "^b") (py "ab") = Some false.
Proof. repeat split; reflexivity. Qed.

Example bad_patterns :
  found (py "a**") (py "a") = None ∧ found (py "(a") (py "a") = None ∧
  found (py "a)") (py "a") = None ∧ found (py "*a") (py "a") = None.
Proof. repeat split; reflexivity. Qed.

Example escape_sample : re.escape (py "1.2-3 a_b") = py "1\.2\-3\ a_b".
Proof. reflexivity. Qed.

(** Without [re.escape] a dot in the number would match any character; with
    it, it matches a dot only. *)
Example escape_matters :
  found (pull_url_pattern ++ py "1.2") (link_to "1x2") = Some true ∧
  link_matches (py "1.2") (link_to "1x2") = false ∧
  link_matches (py "1.2") (link_to "1.2") = true.
Proof. repeat split; by vm_compute. Qed.

(** ** What [re.escape] gives to [re.compile] *)

Section Escape.

Import re.

Lemma special_chars_spelled :
  special_chars =
  [40; 41; 91; 93; 123; 125; 63; 42; 43; 45; 124; 94; 36; 92; 46; 38; 126;
   35; 32; 9; 10; 13; 11; 12].
Proof. reflexivity. Qed.

Ltac each_char H :=
  repeat (apply elem_of_cons in H as [-> | H]); [.. | by apply elem_of_nil in H].

(** A special character is neither a letter nor a digit: escaped, it is a
    literal and not a class or a back reference. *)
Lemma special_not_alnum c :
  c ∈ special_chars → char_in c ASCII_LETTERS || char_in c DIGITS = false.
Proof.
  rewrite special_chars_spelled. intros H. each_char H; by vm_compute.
Qed.

(** The characters with a meaning for the parser are all escaped. *)
Lemma SPECIAL_CHARS_escaped c : c ∈ SPECIAL_CHARS → c ∈ special_chars.
Proof.
  change SPECIAL_CHARS with [46; 92; 91; 123; 40; 41; 42; 43; 63; 94; 36; 124].
  intros H. each_char H; apply (bool_decide_unpack _); by vm_compute.
Qed.

Lemma parse_backslash c p stack cur lazy :
  parse (ord "\" :: c :: p) stack cur lazy =
  if char_in c ASCII_LETTERS || char_in c DIGITS then Unmodelled
  else parse p stack (append (LITERAL c) cur) false.
Proof. reflexivity. Qed.

Lemma parse_plain c p stack cur lazy :
  c ∉ special_chars →
  parse (c :: p) stack cur lazy = parse p stack (append (LITERAL c) cur) false.
Proof.
  intros Hc. cbn [parse].
  assert ((c =? ord "\") = false) as ->.
  { apply N.eqb_neq. intros ->. apply Hc, (bool_decide_unpack _). by vm_compute. }
  assert (char_in c SPECIAL_CHARS = false) as ->; [|done].
  apply bool_decide_eq_false. intros H. by apply Hc, SPECIAL_CHARS_escaped.
Qed.

(** An escaped string is parsed into the literals of its characters,
    whatever they are. *)
Lemma parse_escape s : ∀ rest stack cur,
  parse (escape s ++ rest) stack cur false =
  parse rest stack (Frame (alts cur) (rev (LITERAL <$> s) ++ items cur)) false.
Proof.
  induction s as [|c s IH]; intros rest stack [al its].
  - reflexivity.
  - change (escape (c :: s)) with
      ((if char_in c special_chars then [ord "\"; c] else [c]) ++ escape s).
    rewrite <- app_assoc. unfold char_in at 1. case_bool_decide as Hc.
    + simpl app. rewrite parse_backslash, (special_not_alnum c Hc), IH.
      simpl. by rewrite <- app_assoc.
    + simpl app. rewrite (parse_plain c _ _ _ _ Hc), IH.
      simpl. by rewrite <- app_assoc.
Qed.

Lemma parse_pull_url_pattern rest :
  parse (pull_url_pattern ++ rest) [] (Frame [] []) false =
  parse rest [] (Frame [] (rev (LITERAL <$> pull_url))) false.
Proof. by vm_compute. Qed.

(** The pattern of line 39 compiles, for every [pr_number], to the sequence
    of the literals of the link and of [pr_number]. *)
Lemma compile_pr_pattern pr_number :
  compile (pull_url_pattern ++ escape pr_number) =
  Compiled (sequence (LITERAL <$> pull_url ++ pr_number)).
Proof.
  unfold compile. rewrite parse_pull_url_pattern.
  rewrite <- (app_nil_r (escape pr_number)), parse_escape.
  cbn [parse close_frame alts items rev app branch].
  by rewrite rev_app_distr, !rev_involutive, fmap_app.
Qed.

(** A sequence of literals matches where the string starts with them. *)
Lemma matches_literals l : ∀ bos s,
  matches (sequence (LITERAL <$> l)) bos s (λ _ _, true) = true ↔ l `prefix_of` s.
Proof.
  induction l as [|c l IH]; intros bos s; simpl.
  - split; [intros _; apply prefix_nil | done].
  - destruct s as [|c' s].
    + split; [done | intros H; by apply prefix_nil_not in H].
    + rewrite andb_true_iff, N.eqb_eq, IH. split.
      * intros [-> H]. by apply prefix_cons.
      * intros H. split; [by apply prefix_cons_inv_1 in H | by apply prefix_cons_inv_2 in H].
Qed.

Lemma occurs_in_cons l c s :
  occurs_in l (c :: s) ↔ l `prefix_of` (c :: s) ∨ occurs_in l s.
Proof.
  split.
  - intros [[|c' before] [after H]]; simpl in H.
    + left. by exists after.
    + right. injection H as -> ->. by exists before, after.
  - intros [[after ->] | (before & after & ->)].
    + by exists [], after.
    + by exists (c :: before), after.
Qed.

Lemma search_literals l : ∀ bos s,
  search_from (sequence (LITERAL <$> l)) bos s = true ↔ occurs_in l s.
Proof.
  intros bos s. revert bos. induction s as [|c s IH]; intros bos.
  - unfold search_from. rewrite orb_false_r, matches_literals. split.
    + intros [after ->]. by exists [], after.
    + intros (before & after & H). symmetry in H.
      apply app_eq_nil in H as [-> H]. apply app_eq_nil in H as [-> _].
      apply prefix_nil.
  - change (search_from ?r bos (c :: s))
      with (matches r bos (c :: s) (λ _ _, true) || search_from r false s).
    by rewrite orb_true_iff, matches_literals, IH, occurs_in_cons.
Qed.

End Escape.

(** ** The state monad of the script *)

Section Loop.

Lemma outcome_eta {A} (o : outcome A) :
  Outcome (result o) (server o) (issued o) = o.
Proof. by destruct o. Qed.

Lemma mret_bind {A B} (a : A) (f : A → M B) srv : (mret a ≫= f) srv = f a srv.
Proof. unfold mbind, M_bind, mret, M_ret. simpl. apply outcome_eta. Qed.

Lemma for_each_ext {A} (f g : A → M ()) l srv :
  (∀ x srv', f x srv' = g x srv') → for_each l f srv = for_each l g srv.
Proof.
  intros Hfg. revert srv. induction l as [|x l IH]; intros srv; [done|].
  simpl. unfold mbind, M_bind. rewrite Hfg.
  destruct (result (g x srv)); [by rewrite IH | done].
Qed.

(** A loop whose body, where its test holds, applies [g] to the reactions of
    the message: [g] has been applied to the messages that passed the test
    and the others are as they were. *)
Lemma for_each_when_server (P : message → bool) (body : message → M ())
  (g : gset str → gset str) :
  (∀ m srv, result (body m srv) = Some () ∧
            server (body m srv) = alter g (id m) srv) →
  (∀ x, g (g x) = g x) →
  ∀ messages srv,
    result (for_each messages (λ m, when (P m) (body m)) srv) = Some () ∧
    ∀ j, server (for_each messages (λ m, when (P m) (body m)) srv) !! j =
         if decide (Exists (λ m, P m = true ∧ id m = j) messages)
         then g <$> srv !! j else srv !! j.
Proof.
  intros Hbody Hg. induction messages as [|m messages IH]; intros srv.
  - split; [done|]. intros j. cbn [for_each]. case_decide as H; [by apply Exists_nil in H | done].
  - simpl. unfold mbind, M_bind.
    assert (result (when (P m) (body m) srv) = Some () ∧
            server (when (P m) (body m) srv) =
              if P m then alter g (id m) srv else srv) as [-> Hs].
    { unfold when. destruct (P m); [apply Hbody | done]. }
    simpl. destruct (IH (server (when (P m) (body m) srv))) as [Hr Hl].
    split; [done|]. intros j. rewrite Hl, Hs.
    destruct (P m) eqn:HP.
    + destruct (decide (id m = j)) as [<- | Hne].
      * rewrite lookup_alter_eq.
        rewrite (decide_True (P := Exists _ (m :: messages))) by (by left).
        case_decide; [|done].
        destruct (srv !! id m); simpl; [by rewrite Hg | done].
      * rewrite lookup_alter_ne by done.
        apply decide_ext. rewrite Exists_cons. intuition congruence.
    + apply decide_ext. rewrite Exists_cons. intuition congruence.
Qed.

End Loop.

(** ** One reconciliation *)

Section Reconcile.

Lemma emoji_names_differ :
  py "peace_sign" ≠ py "bors" ∧ py "peace_sign" ≠ py "merge" ∧
  py "bors" ≠ py "merge".
Proof. by vm_compute. Qed.

(** [l in labels] with [labels = [LABEL]] compares [l] with [LABEL]. *)
Lemma in_labels (l LABEL : str) :
  bool_decide (l ∈ [LABEL]) = bool_decide (LABEL = l).
Proof. apply bool_decide_ext. rewrite list_elem_of_singleton. split; congruence. Qed.

Ltac run_calls :=
  unfold when, mbind, M_bind, remove_reaction, add_reaction, mret, M_ret;
  cbn [result server issued].

Ltac same_reactions m srv :=
  apply map_eq; intros j; destruct (decide (id m = j)) as [<- | ?];
  [ rewrite !lookup_alter_eq; destruct (srv !! id m); simpl; [f_equal; set_solver | done]
  | by rewrite !lookup_alter_ne by done ].

Lemma reconcile_outcome LABEL m srv :
  result (reconcile LABEL m srv) = Some () ∧
  server (reconcile LABEL m srv) = alter (reconciled LABEL) (id m) srv.
Proof.
  unfold reconcile. cbv zeta. rewrite !in_labels.
  generalize (any (λ r, bool_decide (emoji_name r = py "peace_sign")) (reactions m)).
  generalize (any (λ r, bool_decide (emoji_name r = py "bors")) (reactions m)).
  intros has_bors has_peace_sign.
  unfold reconciled, reaction_for, status_reactions.
  destruct (bool_decide (LABEL = py "delegated"));
    [| destruct (bool_decide (LABEL = py "ready-to-merge"));
       [| destruct (startswith LABEL (py "[Merged by Bors]"))]];
    destruct has_peace_sign, has_bors; run_calls; (split; [done|]);
    same_reactions m srv.
Qed.

Lemma reconcile_without_guarded_removals_outcome LABEL m srv :
  result (reconcile_without_guarded_removals LABEL m srv) = Some () ∧
  server (reconcile_without_guarded_removals LABEL m srv) =
    alter (reconciled LABEL) (id m) srv.
Proof.
  unfold reconcile_without_guarded_removals. cbv zeta. rewrite !in_labels.
  unfold reconciled, reaction_for, status_reactions.
  destruct (bool_decide (LABEL = py "delegated"));
    [| destruct (bool_decide (LABEL = py "ready-to-merge"));
       [| destruct (startswith LABEL (py "[Merged by Bors]"))]];
    run_calls; (split; [done|]); same_reactions m srv.
Qed.

Lemma reconciled_idempotent LABEL present :
  reconciled LABEL (reconciled LABEL present) = reconciled LABEL present.
Proof.
  destruct emoji_names_differ as (? & ? & ?).
  unfold reconciled, reaction_for, status_reactions.
  repeat case_bool_decide; try destruct (startswith _ _); set_solver.
Qed.

End Reconcile.

(** ** The whole script *)

Section Script.

Lemma link_matches_search pr_number content :
  link_matches pr_number content =
  re.search (re.sequence (re.LITERAL <$> pull_url ++ pr_number)) content.
Proof. unfold link_matches. by rewrite compile_pr_pattern. Qed.

Lemma link_matches_occurs pr_number content :
  link_matches pr_number content = true ↔ occurs_in (pull_url ++ pr_number) content.
Proof. rewrite link_matches_search. apply search_literals. Qed.

(** The pattern always compiles, so the script is its loop. *)
Lemma script_loop LABEL pr_number messages srv :
  script LABEL pr_number messages srv =
  for_each messages
    (λ m, when (link_matches pr_number (content m)) (reconcile LABEL m)) srv.
Proof.
  unfold script, re_compile. rewrite compile_pr_pattern, mret_bind.
  apply for_each_ext. intros m srv'. by rewrite link_matches_search.
Qed.

Lemma script_without_guarded_removals_loop LABEL pr_number messages srv :
  script_without_guarded_removals LABEL pr_number messages srv =
  for_each messages
    (λ m, when (link_matches pr_number (content m))
            (reconcile_without_guarded_removals LABEL m)) srv.
Proof.
  unfold script_without_guarded_removals, re_compile.
  rewrite compile_pr_pattern, mret_bind.
  apply for_each_ext. intros m srv'. by rewrite link_matches_search.
Qed.

(** The reactions of every message after the script. *)
Lemma script_server_lookup LABEL pr_number messages srv j :
  server (script LABEL pr_number messages srv) !! j =
  if decide (Exists (λ m, link_matches pr_number (content m) = true ∧ id m = j)
               messages)
  then reconciled LABEL <$> srv !! j else srv !! j.
Proof.
  rewrite script_loop.
  apply (for_each_when_server _ _ (reconciled LABEL)
           (reconcile_outcome LABEL) (reconciled_idempotent LABEL)).
Qed.

Lemma script_result LABEL pr_number messages srv :
  result (script LABEL pr_number messages srv) = Some ().
Proof.
  rewrite script_loop.
  apply (for_each_when_server _ _ (reconciled LABEL)
           (reconcile_outcome LABEL) (reconciled_idempotent LABEL)).
Qed.

Lemma matched_message_reconciled LABEL pr_number messages srv m present :
  m ∈ messages → link_matches pr_number (content m) = true →
  srv !! id m = Some present →
  server (script LABEL pr_number messages srv) !! id m =
  Some (reconciled LABEL present).
Proof.
  intros Hin Hm Hsrv. rewrite script_server_lookup, Hsrv.
  rewrite decide_True; [done|]. apply Exists_exists. eauto.
Qed.

(** A label that starts with the prefix is neither of the two exact ones. *)
Lemma merged_label_not_exact LABEL :
  py "[Merged by Bors]" `prefix_of` LABEL →
  LABEL ≠ py "delegated" ∧ LABEL ≠ py "ready-to-merge".
Proof. intros [k ->]. split; intros H; vm_compute in H; discriminate. Qed.

Lemma issued_for_each {A} (P : call → Prop) (body : A → M ()) l :
  (∀ x srv, Forall P (issued (body x srv))) →
  ∀ srv, Forall P (issued (for_each l body srv)).
Proof.
  intros Hbody. induction l as [|x l IH]; intros srv; [by constructor|].
  simpl. unfold mbind, M_bind.
  destruct (result (body x srv)); cbn [issued]; [|done].
  apply Forall_app. split; [apply Hbody | apply IH].
Qed.

Lemma reconcile_issues_no_add LABEL m srv :
  LABEL ≠ py "delegated" → LABEL ≠ py "ready-to-merge" →
  ¬ py "[Merged by Bors]" `prefix_of` LABEL →
  Forall (λ c, is_add c = false) (issued (reconcile LABEL m srv)).
Proof.
  intros H1 H2 H3. unfold reconcile. cbv zeta. rewrite !in_labels.
  rewrite !bool_decide_eq_false_2 by done.
  unfold startswith. rewrite bool_decide_eq_false_2 by done.
  unfold mbind, M_bind, remove_reaction, mret, M_ret. cbn [result server issued].
  simpl. by repeat constructor.
Qed.

End Script.

(** * The claims *)

(** ** Matching the pull request *)

(** C1, as stated, fails: invoked with number 12 (or 19), the script takes a
    message that links pull request 123 (or 190) for a match and reconciles
    it; the end of the number is not anchored. *)
Lemma extended_number_is_matched :
  link_matches (py "12") (link_to "123") = true ∧
  link_matches (py "19") (link_to "190") = true ∧
  issued (script (py "delegated") (py "12") [about_123] sample_server) =
    [ remove_reaction_call 1 (py "peace_sign");
      remove_reaction_call 1 (py "bors");
      remove_reaction_call 1 (py "merge");
      add_reaction_call 1 (py "peace_sign") ].
Proof. by vm_compute. Qed.

(** C1, amended: the number is matched as a substring. For every
    [pr_number], a content that holds the link of a pull request whose
    number extends [pr_number] is treated as a match. *)
Theorem link_matches_extended_number pr_number extension before after :
  link_matches pr_number
    (before ++ pull_url ++ (pr_number ++ extension) ++ after) = true.
Proof.
  apply link_matches_occurs. exists before, (extension ++ after).
  by rewrite <- !app_assoc.
Qed.

(** C10: for every [pr_number], special characters included, the pattern of
    line 39 compiles, and it is found in a content exactly when the content
    contains the characters of the link followed by those of [pr_number]. *)
Theorem pr_pattern_is_literal pr_number content :
  ∃ pr_pattern,
    re.compile (pull_url_pattern ++ re.escape pr_number) = re.Compiled pr_pattern ∧
    (re.search pr_pattern content = true ↔
     occurs_in (pull_url ++ pr_number) content).
Proof.
  eexists. split; [apply compile_pr_pattern|]. apply search_literals.
Qed.

(** ** The loop over the messages *)

(** C2, as stated, fails: with two fetched messages that link pull request
    12, the second one is reconciled as well. *)
Lemma later_match_is_reconciled_too :
  link_matches (py "12") (content about_12) = true ∧
  link_matches (py "12") (content again_12) = true ∧
  issued (script (py "delegated") (py "12") [about_12; again_12] sample_server) =
    [ remove_reaction_call 2 (py "peace_sign");
      remove_reaction_call 2 (py "bors");
      remove_reaction_call 2 (py "merge");
      add_reaction_call 2 (py "peace_sign");
      remove_reaction_call 3 (py "peace_sign");
      remove_reaction_call 3 (py "bors");
      remove_reaction_call 3 (py "merge");
      add_reaction_call 3 (py "peace_sign") ] ∧
  server (script (py "delegated") (py "12") [about_12; again_12] sample_server)
    !! 3%Z ≠ sample_server !! 3%Z.
Proof.
  split; [by vm_compute|]. split; [by vm_compute|]. split; [by vm_compute|].
  intros H. vm_compute in H. discriminate H.
Qed.

(** C2, amended: every fetched message whose content matches is reconciled,
    in the order returned; the script is the reconciliation of each of them
    in turn. *)
Theorem script_reconciles_every_match LABEL pr_number messages srv :
  script LABEL pr_number messages srv =
  for_each
    (filter (λ m, link_matches pr_number (content m) = true) messages)
    (reconcile LABEL) srv.
Proof.
  rewrite script_loop. revert srv.
  induction messages as [|m messages IH]; intros srv; [done|].
  cbn [for_each]. destruct (link_matches pr_number (content m)) eqn:Hm.
  - rewrite filter_cons_True by done. cbn [for_each when].
    unfold mbind, M_bind.
    destruct (result (reconcile LABEL m srv)); [by rewrite IH | done].
  - rewrite filter_cons_False by (by rewrite Hm). cbn [when].
    by rewrite mret_bind.
Qed.

(** C7: when no fetched message matches, the script ends normally, has sent
    no request, and the server is as it was. *)
Theorem no_match_no_call LABEL pr_number messages srv :
  Forall (λ m, link_matches pr_number (content m) = false) messages →
  script LABEL pr_number messages srv = Outcome (Some ()) srv [].
Proof.
  intros Hno. rewrite script_loop. revert srv.
  induction Hno as [|m messages Hm _ IH]; intros srv; [done|].
  cbn [for_each]. rewrite Hm. cbn [when]. by rewrite mret_bind.
Qed.

Lemma no_match_no_call_witness :
  Forall (λ m, link_matches (py "77") (content m) = false)
    [about_123; about_12; chatter] ∧
  script (py "delegated") (py "77") [about_123; about_12; chatter] sample_server =
    Outcome (Some ()) sample_server [].
Proof.
  assert (Forall (λ m, link_matches (py "77") (content m) = false)
            [about_123; about_12; chatter]) as H.
  { repeat constructor; by vm_compute. }
  split; [exact H|].
  exact (no_match_no_call (py "delegated") (py "77") _ sample_server H).
Defined.

(** ** The reactions after the script *)

(** C3: with the label [delegated], whatever the reactions of a matched
    message were, it ends with [peace_sign] and without [bors] and [merge]. *)
Theorem delegated_ends_with_peace_sign pr_number messages srv m present :
  m ∈ messages → link_matches pr_number (content m) = true →
  srv !! id m = Some present →
  ∃ present',
    server (script (py "delegated") pr_number messages srv) !! id m = Some present' ∧
    (py "peace_sign" ∈ present') ∧ (py "bors" ∉ present') ∧ (py "merge" ∉ present').
Proof.
  intros Hin Hm Hsrv. eexists. split; [by eapply matched_message_reconciled|].
  destruct emoji_names_differ as (? & ? & ?).
  unfold reconciled, reaction_for, status_reactions.
  rewrite bool_decide_eq_true_2 by done. set_solver.
Qed.

Lemma delegated_ends_with_peace_sign_witness :
  about_12 ∈ [about_123; about_12; chatter] ∧
  link_matches (py "12") (content about_12) = true ∧
  sample_server !! id about_12 = Some {[ py "peace_sign" ]} ∧
  ∃ present',
    server (script (py "delegated") (py "12") [about_123; about_12; chatter]
              sample_server) !! id about_12 = Some present' ∧
    (py "peace_sign" ∈ present') ∧ (py "bors" ∉ present') ∧ (py "merge" ∉ present').
Proof.
  assert (about_12 ∈ [about_123; about_12; chatter]) as H1 by set_solver.
  assert (link_matches (py "12") (content about_12) = true) as H2 by (by vm_compute).
  assert (sample_server !! id about_12 = Some {[ py "peace_sign" ]}) as H3
    by (by vm_compute).
  repeat split; [done.. |].
  exact (delegated_ends_with_peace_sign _ _ _ _ _ H1 H2 H3).
Defined.

(** C4: with the label [ready-to-merge], whatever the reactions of a matched
    message were, it ends with [bors] and without [peace_sign] and [merge]. *)
Theorem ready_to_merge_ends_with_bors pr_number messages srv m present :
  m ∈ messages → link_matches pr_number (content m) = true →
  srv !! id m = Some present →
  ∃ present',
    server (script (py "ready-to-merge") pr_number messages srv) !! id m
      = Some present' ∧
    (py "bors" ∈ present') ∧ (py "peace_sign" ∉ present') ∧ (py "merge" ∉ present').
Proof.
  intros Hin Hm Hsrv. eexists. split; [by eapply matched_message_reconciled|].
  destruct emoji_names_differ as (? & ? & ?).
  unfold reconciled, reaction_for, status_reactions.
  rewrite bool_decide_eq_false_2 by (by vm_compute).
  rewrite bool_decide_eq_true_2 by done. set_solver.
Qed.

Lemma ready_to_merge_ends_with_bors_witness :
  about_12 ∈ [about_123; about_12; chatter] ∧
  link_matches (py "12") (content about_12) = true ∧
  sample_server !! id about_12 = Some {[ py "peace_sign" ]} ∧
  ∃ present',
    server (script (py "ready-to-merge") (py "12") [about_123; about_12; chatter]
              sample_server) !! id about_12 = Some present' ∧
    (py "bors" ∈ present') ∧ (py "peace_sign" ∉ present') ∧ (py "merge" ∉ present').
Proof.
  assert (about_12 ∈ [about_123; about_12; chatter]) as H1 by set_solver.
  assert (link_matches (py "12") (content about_12) = true) as H2 by (by vm_compute).
  assert (sample_server !! id about_12 = Some {[ py "peace_sign" ]}) as H3
    by (by vm_compute).
  repeat split; [done.. |].
  exact (ready_to_merge_ends_with_bors _ _ _ _ _ H1 H2 H3).
Defined.

(** C5: with a label that begins with [[Merged by Bors]], whatever the
    reactions of a matched message were, it ends with [merge] and without
    [peace_sign] and [bors]. *)
Theorem merged_by_bors_ends_with_merge LABEL pr_number messages srv m present :
  py "[Merged by Bors]" `prefix_of` LABEL →
  m ∈ messages → link_matches pr_number (content m) = true →
  srv !! id m = Some present →
  ∃ present',
    server (script LABEL pr_number messages srv) !! id m = Some present' ∧
    (py "merge" ∈ present') ∧ (py "peace_sign" ∉ present') ∧ (py "bors" ∉ present').
Proof.
  intros Hpre Hin Hm Hsrv. eexists. split; [by eapply matched_message_reconciled|].
  destruct emoji_names_differ as (? & ? & ?).
  destruct (merged_label_not_exact LABEL Hpre) as [? ?].
  unfold reconciled, reaction_for, status_reactions, startswith.
  rewrite !bool_decide_eq_false_2 by done.
  rewrite bool_decide_eq_true_2 by done. set_solver.
Qed.

Lemma merged_by_bors_ends_with_merge_witness :
  py "[Merged by Bors]" `prefix_of` py "[Merged by Bors] - fix the build" ∧
  about_12 ∈ [about_123; about_12; chatter] ∧
  link_matches (py "12") (content about_12) = true ∧
  sample_server !! id about_12 = Some {[ py "peace_sign" ]} ∧
  ∃ present',
    server (script (py "[Merged by Bors] - fix the build") (py "12")
              [about_123; about_12; chatter] sample_server) !! id about_12
      = Some present' ∧
    (py "merge" ∈ present') ∧ (py "peace_sign" ∉ present') ∧ (py "bors" ∉ present').
Proof.
  assert (py "[Merged by Bors]" `prefix_of` py "[Merged by Bors] - fix the build")
    as H0 by (by exists (py " - fix the build")).
  assert (about_12 ∈ [about_123; about_12; chatter]) as H1 by set_solver.
  assert (link_matches (py "12") (content about_12) = true) as H2 by (by vm_compute).
  assert (sample_server !! id about_12 = Some {[ py "peace_sign" ]}) as H3
    by (by vm_compute).
  repeat split; [done.. |].
  exact (merged_by_bors_ends_with_merge _ _ _ _ _ _ H0 H1 H2 H3).
Defined.

(** C6: with a label that is neither [delegated] nor [ready-to-merge] and
    does not begin with [[Merged by Bors]], the script sends no add-reaction
    request, and every matched message ends without [peace_sign], [bors] and
    [merge], whatever its reactions were. *)
Theorem other_label_clears_status LABEL pr_number messages srv :
  LABEL ≠ py "delegated" → LABEL ≠ py "ready-to-merge" →
  ¬ py "[Merged by Bors]" `prefix_of` LABEL →
  Forall (λ c, is_add c = false) (issued (script LABEL pr_number messages srv)) ∧
  ∀ m present,
    m ∈ messages → link_matches pr_number (content m) = true →
    srv !! id m = Some present →
    ∃ present',
      server (script LABEL pr_number messages srv) !! id m = Some present' ∧
      (py "peace_sign" ∉ present') ∧ (py "bors" ∉ present') ∧ (py "merge" ∉ present').
Proof.
  intros H1 H2 H3. split.
  - rewrite script_loop. apply issued_for_each. intros m srv'.
    unfold when. destruct (link_matches _ _); [|by constructor].
    by apply reconcile_issues_no_add.
  - intros m present Hin Hm Hsrv.
    eexists. split; [by eapply matched_message_reconciled|].
    unfold reconciled, reaction_for, status_reactions, startswith.
    rewrite !bool_decide_eq_false_2 by done. set_solver.
Qed.

Lemma other_label_clears_status_witness :
  py "awaiting-review" ≠ py "delegated" ∧
  py "awaiting-review" ≠ py "ready-to-merge" ∧
  ¬ py "[Merged by Bors]" `prefix_of` py "awaiting-review" ∧
  Forall (λ c, is_add c = false)
    (issued (script (py "awaiting-review") (py "12") [about_12; chatter]
               sample_server)) ∧
  ∀ m present,
    m ∈ [about_12; chatter] → link_matches (py "12") (content m) = true →
    sample_server !! id m = Some present →
    ∃ present',
      server (script (py "awaiting-review") (py "12") [about_12; chatter]
                sample_server) !! id m = Some present' ∧
      (py "peace_sign" ∉ present') ∧ (py "bors" ∉ present') ∧ (py "merge" ∉ present').
Proof.
  assert (py "awaiting-review" ≠ py "delegated") as H1 by (by vm_compute).
  assert (py "awaiting-review" ≠ py "ready-to-merge") as H2 by (by vm_compute).
  assert (¬ py "[Merged by Bors]" `prefix_of` py "awaiting-review") as H3.
  { intros [k H]. vm_compute in H. discriminate H. }
  split; [exact H1|]. split; [exact H2|]. split; [exact H3|].
  exact (other_label_clears_status _ (py "12") [about_12; chatter] sample_server
           H1 H2 H3).
Defined.

(** ** Running it again, and the guarded removals *)

Lemma same_messages_matched pr_number j messages messages' :
  same_messages messages messages' →
  Exists (λ m, link_matches pr_number (content m) = true ∧ id m = j) messages' ↔
  Exists (λ m, link_matches pr_number (content m) = true ∧ id m = j) messages.
Proof.
  induction 1 as [|m m' messages messages' [Hid Hc] _ IH].
  - done.
  - by rewrite !Exists_cons, IH, Hid, Hc.
Qed.

(** C8: for every label and every state of the server, the script run a
    second time with the same label, on the same messages fetched again,
    leaves the reactions of every message as the first run left them. *)
Theorem script_twice_as_once LABEL pr_number messages messages' srv :
  same_messages messages messages' →
  server (script LABEL pr_number messages'
            (server (script LABEL pr_number messages srv))) =
  server (script LABEL pr_number messages srv).
Proof.
  intros Hsame. apply map_eq. intros j. rewrite !script_server_lookup.
  rewrite (decide_ext _ _ _ _ (same_messages_matched pr_number j _ _ Hsame)).
  case_decide; [|done].
  destruct (srv !! j); simpl; [by rewrite reconciled_idempotent | done].
Qed.

Lemma script_twice_as_once_witness :
  same_messages [about_12; chatter]
    [Message 2 (content about_12) [Reaction (py "bors") 7]; chatter] ∧
  server (script (py "ready-to-merge") (py "12")
            [Message 2 (content about_12) [Reaction (py "bors") 7]; chatter]
            (server (script (py "ready-to-merge") (py "12") [about_12; chatter]
                       sample_server))) =
  server (script (py "ready-to-merge") (py "12") [about_12; chatter] sample_server).
Proof.
  assert (same_messages [about_12; chatter]
            [Message 2 (content about_12) [Reaction (py "bors") 7]; chatter]) as H.
  { by repeat constructor. }
  split; [exact H|].
  exact (script_twice_as_once (py "ready-to-merge") (py "12") _ _ sample_server H).
Defined.

(** C9: for every label, every fetched list and every state of the server,
    the script without the removals guarded by [has_peace_sign] and
    [has_bors] ends as the script does and leaves the same reactions on every
    message. *)
Theorem guarded_removals_change_nothing LABEL pr_number messages srv :
  result (script_without_guarded_removals LABEL pr_number messages srv) =
    result (script LABEL pr_number messages srv) ∧
  server (script_without_guarded_removals LABEL pr_number messages srv) =
    server (script LABEL pr_number messages srv).
Proof.
  rewrite script_without_guarded_removals_loop, script_result.
  destruct (for_each_when_server (λ m, link_matches pr_number (content m))
              (reconcile_without_guarded_removals LABEL) (reconciled LABEL)
              (reconcile_without_guarded_removals_outcome LABEL)
              (reconciled_idempotent LABEL) messages srv) as [Hr Hl].
  split; [done|]. apply map_eq. intros j.
  by rewrite Hl, script_server_lookup.
Qed.

(** * Further properties *)

(** ** Arguments and response *)

Section Start.

Lemma raise_bind {A B} (f : A → M B) srv : (raise ≫= f) srv = Outcome None srv [].
Proof. reflexivity. Qed.

Lemma argv_item_short {B} (argv : list str) i (f : str → M B) srv :
  (length argv ≤ i)%nat → (argv_item argv i ≫= f) srv = Outcome None srv [].
Proof.
  intros H. unfold argv_item. by rewrite (lookup_ge_None_2 argv i H).
Qed.

Lemma argv_item_some {B} (argv : list str) i a (f : str → M B) srv :
  argv !! i = Some a → (argv_item argv i ≫= f) srv = f a srv.
Proof. intros H. unfold argv_item. rewrite H. apply mret_bind. Qed.


(** Before the loop the script sends nothing: where an argument or the
    [messages] key is missing it ends there. *)
Lemma main_fails_early argv response srv :
  (length argv < 6)%nat ∨ response !! py "messages" = None →
  main argv response srv = Outcome None srv [].
Proof.
  intros Hearly. unfold main.
  destruct (argv !! 1%nat) as [a1|] eqn:H1;
    [rewrite (argv_item_some _ _ _ _ _ H1) | apply argv_item_short, lookup_ge_None, H1].
  destruct (argv !! 2%nat) as [a2|] eqn:H2;
    [rewrite (argv_item_some _ _ _ _ _ H2) | apply argv_item_short, lookup_ge_None, H2].
  destruct (argv !! 3%nat) as [a3|] eqn:H3;
    [rewrite (argv_item_some _ _ _ _ _ H3) | apply argv_item_short, lookup_ge_None, H3].
  destruct (argv !! 4%nat) as [a4|] eqn:H4;
    [rewrite (argv_item_some _ _ _ _ _ H4) | apply argv_item_short, lookup_ge_None, H4].
  destruct (argv !! 5%nat) as [a5|] eqn:H5;
    [rewrite (argv_item_some _ _ _ _ _ H5) | apply argv_item_short, lookup_ge_None, H5].
  destruct Hearly as [Hlen | Hnone].
  - apply lookup_lt_Some in H5. lia.
  - unfold getitem. by rewrite Hnone.
Qed.

End Start.

(** X1: with fewer than five arguments after the name of the script, the
    script ends with an exception, has sent no request and has changed
    nothing on the server, whatever the server would have answered. *)
Theorem main_too_few_arguments argv response srv :
  (length argv < 6)%nat → main argv response srv = Outcome None srv [].
Proof. intros Hlen. apply main_fails_early. by left. Qed.

Lemma main_too_few_arguments_witness :
  (length (take 5 (sample_argv "delegated" "12")) < 6)%nat ∧
  main (take 5 (sample_argv "delegated" "12")) sample_response sample_server =
    Outcome None sample_server [].
Proof.
  assert (length (take 5 (sample_argv "delegated" "12")) < 6)%nat as H
    by (simpl; lia).
  split; [exact H|].
  exact (main_too_few_arguments _ sample_response sample_server H).
Defined.

(** X2: when the response has no [messages] key (the answer of the server to
    a failed request), the script ends with an exception, has sent no
    request and has changed nothing, whatever its arguments are. *)
Theorem main_without_messages argv response srv :
  response !! py "messages" = None →
  main argv response srv = Outcome None srv [].
Proof. intros Hnone. apply main_fails_early. by right. Qed.

Lemma main_without_messages_witness :
  error_response !! py "messages" = None ∧
  main (sample_argv "delegated" "12") error_response sample_server =
    Outcome None sample_server [].
Proof.
  assert (error_response !! py "messages" = None) as H by (by vm_compute).
  split; [exact H|].
  exact (main_without_messages _ error_response sample_server H).
Defined.



(** ** What the script leaves alone *)

Section Frame.

Lemma reaction_for_status LABEL : reaction_for LABEL ⊆ status_reactions.
Proof.
  unfold reaction_for, status_reactions.
  repeat case_bool_decide; try destruct (startswith _ _); set_solver.
Qed.

Lemma reaction_for_at_most_one LABEL e1 e2 :
  e1 ∈ reaction_for LABEL → e2 ∈ reaction_for LABEL → e1 = e2.
Proof.
  unfold reaction_for.
  repeat case_bool_decide; try destruct (startswith _ _); set_solver.
Qed.

Lemma reconciled_other LABEL present e :
  e ∉ status_reactions → e ∈ reconciled LABEL present ↔ e ∈ present.
Proof.
  pose proof (reaction_for_status LABEL). unfold reconciled. set_solver.
Qed.

Lemma reconciled_status LABEL present e :
  e ∈ status_reactions → e ∈ reconciled LABEL present ↔ e ∈ reaction_for LABEL.
Proof. unfold reconciled. set_solver. Qed.

(** A later label wipes out what an earlier one left. *)
Lemma reconciled_absorbs LABEL1 LABEL2 present :
  reconciled LABEL2 (reconciled LABEL1 present) = reconciled LABEL2 present.
Proof.
  pose proof (reaction_for_status LABEL1). unfold reconciled. set_solver.
Qed.

End Frame.

(** X4: the script touches the three status reactions only. On every
    message of the server, matched or not, any other reaction is present
    after the script exactly when it was present before. *)
Theorem other_reactions_untouched LABEL pr_number messages srv j present :
  srv !! j = Some present →
  ∃ present',
    server (script LABEL pr_number messages srv) !! j = Some present' ∧
    ∀ e, e ∉ status_reactions → e ∈ present' ↔ e ∈ present.
Proof.
  intros Hsrv. rewrite script_server_lookup, Hsrv. case_decide.
  - eexists. split; [done|]. intros e He. by apply reconciled_other.
  - by eexists.
Qed.

Lemma other_reactions_untouched_witness :
  sample_server !! 3%Z = Some {[ py "merge"; py "tada" ]} ∧
  ∃ present',
    server (script (py "delegated") (py "12") [about_12; again_12] sample_server)
      !! 3%Z = Some present' ∧
    ∀ e, e ∉ status_reactions →
         e ∈ present' ↔ e ∈ ({[ py "merge"; py "tada" ]} : gset str).
Proof.
  assert (sample_server !! 3%Z = Some {[ py "merge"; py "tada" ]}) as H
    by (by vm_compute).
  split; [exact H|].
  exact (other_reactions_untouched (py "delegated") (py "12")
           [about_12; again_12] sample_server 3%Z _ H).
Defined.

(** X5: a message of the server whose id is not the id of a fetched message
    that matches keeps all its reactions, status reactions included. *)
Theorem unmatched_messages_untouched LABEL pr_number messages srv j :
  (∀ m, m ∈ messages → link_matches pr_number (content m) = true → id m ≠ j) →
  server (script LABEL pr_number messages srv) !! j = srv !! j.
Proof.
  intros Hno. rewrite script_server_lookup.
  rewrite decide_False; [done|].
  intros (m & Hin & Hm & Hid)%Exists_exists. by apply (Hno m).
Qed.

Lemma unmatched_messages_untouched_witness :
  (∀ m, m ∈ [about_123; about_12; chatter] →
        link_matches (py "12") (content m) = true → id m ≠ 4%Z) ∧
  server (script (py "delegated") (py "12") [about_123; about_12; chatter]
            sample_server) !! 4%Z = sample_server !! 4%Z.
Proof.
  assert (∀ m, m ∈ [about_123; about_12; chatter] →
               link_matches (py "12") (content m) = true → id m ≠ 4%Z) as H.
  { intros m Hin Hm.
    apply elem_of_cons in Hin as [-> | Hin]; [done|].
    apply elem_of_cons in Hin as [-> | Hin]; [done|].
    apply list_elem_of_singleton in Hin as ->. by vm_compute in Hm. }
  split; [exact H|].
  exact (unmatched_messages_untouched (py "delegated") (py "12") _ sample_server
           4%Z H).
Defined.

(** X6: after the script a matched message carries at most one of the three
    status reactions, for every label and whatever it carried before. *)
Theorem at_most_one_status_reaction LABEL pr_number messages srv m present :
  m ∈ messages → link_matches pr_number (content m) = true →
  srv !! id m = Some present →
  ∃ present',
    server (script LABEL pr_number messages srv) !! id m = Some present' ∧
    ∀ e1 e2, e1 ∈ status_reactions → e2 ∈ status_reactions →
             e1 ∈ present' → e2 ∈ present' → e1 = e2.
Proof.
  intros Hin Hm Hsrv. eexists. split; [by eapply matched_message_reconciled|].
  intros e1 e2 Hs1 Hs2 H1 H2.
  apply reconciled_status in H1, H2; [|done..].
  by eapply reaction_for_at_most_one.
Qed.

Lemma at_most_one_status_reaction_witness :
  again_12 ∈ [about_12; again_12] ∧
  link_matches (py "12") (content again_12) = true ∧
  sample_server !! id again_12 = Some {[ py "merge"; py "tada" ]} ∧
  ∃ present',
    server (script (py "ready-to-merge") (py "12") [about_12; again_12]
              sample_server) !! id again_12 = Some present' ∧
    ∀ e1 e2, e1 ∈ status_reactions → e2 ∈ status_reactions →
             e1 ∈ present' → e2 ∈ present' → e1 = e2.
Proof.
  assert (again_12 ∈ [about_12; again_12]) as H1 by set_solver.
  assert (link_matches (py "12") (content again_12) = true) as H2 by (by vm_compute).
  assert (sample_server !! id again_12 = Some {[ py "merge"; py "tada" ]}) as H3
    by (by vm_compute).
  split; [exact H1|]. split; [exact H2|]. split; [exact H3|].
  exact (at_most_one_status_reaction (py "ready-to-merge") _ _ _ _ _ H1 H2 H3).
Defined.

(** ** Runs after runs *)

(** X7: the last label wins. After a run with one label, a run with another
    label on the same messages fetched again leaves every message as a
    single run with the second label would have. *)
Theorem last_label_wins LABEL1 LABEL2 pr_number messages messages' srv :
  same_messages messages messages' →
  server (script LABEL2 pr_number messages'
            (server (script LABEL1 pr_number messages srv))) =
  server (script LABEL2 pr_number messages srv).
Proof.
  intros Hsame. apply map_eq. intros j. rewrite !script_server_lookup.
  rewrite (decide_ext _ _ _ _ (same_messages_matched pr_number j _ _ Hsame)).
  case_decide; [|done].
  destruct (srv !! j); simpl; [by rewrite reconciled_absorbs | done].
Qed.

Lemma last_label_wins_witness :
  same_messages [about_12; chatter]
    [Message 2 (content about_12) [Reaction (py "peace_sign") 7]; chatter] ∧
  server (script (py "[Merged by Bors] - done") (py "12")
            [Message 2 (content about_12) [Reaction (py "peace_sign") 7]; chatter]
            (server (script (py "delegated") (py "12") [about_12; chatter]
                       sample_server))) =
  server (script (py "[Merged by Bors] - done") (py "12") [about_12; chatter]
            sample_server).
Proof.
  assert (same_messages [about_12; chatter]
            [Message 2 (content about_12) [Reaction (py "peace_sign") 7]; chatter])
    as H by (by repeat constructor).
  split; [exact H|].
  exact (last_label_wins (py "delegated") (py "[Merged by Bors] - done") (py "12")
           _ _ sample_server H).
Defined.

(** X8: the reactions that come with the fetched messages do not decide
    where the server ends: two fetched lists with the same ids and contents
    lead to the same reactions on every message. *)
Theorem fetched_reactions_do_not_matter LABEL pr_number messages messages' srv :
  same_messages messages messages' →
  server (script LABEL pr_number messages' srv) =
  server (script LABEL pr_number messages srv).
Proof.
  intros Hsame. apply map_eq. intros j. rewrite !script_server_lookup.
  by rewrite (decide_ext _ _ _ _ (same_messages_matched pr_number j _ _ Hsame)).
Qed.

Lemma fetched_reactions_do_not_matter_witness :
  same_messages [about_12; chatter] [Message 2 (content about_12) []; chatter] ∧
  server (script (py "[Merged by Bors] - done") (py "12")
            [Message 2 (content about_12) []; chatter] sample_server) =
  server (script (py "[Merged by Bors] - done") (py "12") [about_12; chatter]
            sample_server).
Proof.
  assert (same_messages [about_12; chatter]
            [Message 2 (content about_12) []; chatter])
    as H by (by repeat constructor).
  split; [exact H|].
  exact (fetched_reactions_do_not_matter _ (py "12") _ _ sample_server H).
Defined.



(** ** The requests *)

(** The requests of one reconciliation, branch by branch and for both values
    of [has_peace_sign] and [has_bors]. *)
Ltac reconcile_cases LABEL m :=
  unfold reconcile; cbv zeta; rewrite !in_labels;
  generalize (any (λ r, bool_decide (emoji_name r = py "peace_sign")) (reactions m));
  generalize (any (λ r, bool_decide (emoji_name r = py "bors")) (reactions m));
  intros [] [];
  (destruct (bool_decide (LABEL = py "delegated"));
    [| destruct (bool_decide (LABEL = py "ready-to-merge"));
       [| destruct (startswith LABEL (py "[Merged by Bors]"))]]);
  unfold when, mbind, M_bind, remove_reaction, add_reaction, mret, M_ret;
  cbn [result server issued app].

Section Requests.

Lemma reconcile_requests LABEL m srv :
  Forall (λ c, message_id_of c = id m ∧ emoji_name_of c ∈ status_reactions)
    (issued (reconcile LABEL m srv)) ∧
  (3 ≤ length (issued (reconcile LABEL m srv)) ≤ 6)%nat.
Proof.
  reconcile_cases LABEL m;
    (split; [repeat constructor; unfold status_reactions; set_solver
            | simpl; lia]).
Qed.

Lemma issued_for_each_in {A} (P : call → Prop) (body : A → M ()) l :
  (∀ x srv, x ∈ l → Forall P (issued (body x srv))) →
  ∀ srv, Forall P (issued (for_each l body srv)).
Proof.
  induction l as [|x l IH]; intros Hbody srv; [by constructor|].
  simpl. unfold mbind, M_bind.
  destruct (result (body x srv)); cbn [issued]; [| apply Hbody; by left].
  apply Forall_app. split; [apply Hbody; by left|].
  apply IH. intros y srv' Hy. apply Hbody. by right.
Qed.

Lemma length_issued_for_each_when (P : message → bool) (body : message → M ())
  (lo hi : nat) :
  (∀ m srv, result (body m srv) = Some () ∧
            (lo ≤ length (issued (body m srv)) ≤ hi)%nat) →
  ∀ messages srv,
    (lo * length (filter (λ m, P m = true) messages)
     ≤ length (issued (for_each messages (λ m, when (P m) (body m)) srv))
     ≤ hi * length (filter (λ m, P m = true) messages))%nat.
Proof.
  intros Hbody. induction messages as [|m messages IH]; intros srv.
  - simpl. lia.
  - cbn [for_each]. unfold mbind, M_bind. destruct (P m) eqn:HP; cbn [when].
    + rewrite filter_cons_True by done.
      destruct (Hbody m srv) as [-> Hlen]. cbn [issued].
      rewrite length_app. cbn [length].
      specialize (IH (server (body m srv))). lia.
    + rewrite filter_cons_False by (by rewrite HP).
      cbn [result server issued mret M_ret app]. apply IH.
Qed.

End Requests.

(** X10: every request of the script is about one of the three status
    reactions and is addressed to a fetched message whose content matches;
    no other message and no other emoji is ever named. *)
Theorem requests_only_for_matches LABEL pr_number messages srv :
  Forall (λ c, emoji_name_of c ∈ status_reactions ∧
               ∃ m, m ∈ messages ∧ link_matches pr_number (content m) = true ∧
                    id m = message_id_of c)
    (issued (script LABEL pr_number messages srv)).
Proof.
  rewrite script_loop. apply issued_for_each_in. intros m srv' Hin.
  unfold when. destruct (link_matches pr_number (content m)) eqn:Hm;
    [|by constructor].
  destruct (reconcile_requests LABEL m srv') as [Hall _].
  eapply Forall_impl; [exact Hall|]. intros c [Hid He]. split; [done|].
  by exists m.
Qed.

(** X11: the script sends at least three and at most six requests for each
    fetched message that matches, and none for the others. *)
Theorem request_count LABEL pr_number messages srv :
  (3 * length (matching pr_number messages)
   ≤ length (issued (script LABEL pr_number messages srv))
   ≤ 6 * length (matching pr_number messages))%nat.
Proof.
  rewrite script_loop. unfold matching.
  apply (length_issued_for_each_when
           (λ m, link_matches pr_number (content m)) (reconcile LABEL)).
  intros m srv'. split; [apply reconcile_outcome | apply reconcile_requests].
Qed.

(** X12: one reconciliation starts with the removals of [peace_sign], [bors]
    and [merge], in this order, and a request that adds a reaction is its
    last request: nothing the reconciliation adds is removed by it again. *)
Theorem removals_come_before_the_add LABEL m srv :
  take 3 (issued (reconcile LABEL m srv)) =
    [ remove_reaction_call (id m) (py "peace_sign");
      remove_reaction_call (id m) (py "bors");
      remove_reaction_call (id m) (py "merge") ] ∧
  ∀ i c, issued (reconcile LABEL m srv) !! i = Some c → is_add c = true →
         S i = length (issued (reconcile LABEL m srv)).
Proof.
  reconcile_cases LABEL m; (split; [reflexivity|]); intros i c Hi Hc;
    repeat (destruct i as [|i]; simpl in Hi;
            [injection Hi as <-; (discriminate Hc || reflexivity) |]);
    discriminate Hi.
Qed.

(** ** The search *)

(** X13: a content shorter than the link with its number is never taken for
    a match; the empty content in particular. *)
Theorem short_content_never_matches pr_number content :
  (length content < length pull_url + length pr_number)%nat →
  link_matches pr_number content = false.
Proof.
  intros Hlen. apply not_true_is_false. intros H.
  apply link_matches_occurs in H as (before & after & ->).
  rewrite !length_app in Hlen. lia.
Qed.

Lemma short_content_never_matches_witness :
  (length (py "see pull/12") < length pull_url + length (py "12"))%nat ∧
  link_matches (py "12") (py "see pull/12") = false.
Proof.
  assert (length (py "see pull/12") < length pull_url + length (py "12"))%nat
    as H by (vm_compute; lia).
  split; [exact H|].
  exact (short_content_never_matches (py "12") (py "see pull/12") H).
Defined.

(** X14: the link is looked for anywhere in the content: a content that
    matches still matches with any text before it and after it. *)
Theorem match_anywhere pr_number content before after :
  link_matches pr_number content = true →
  link_matches pr_number (before ++ content ++ after) = true.
Proof.
  intros (b & a & ->)%link_matches_occurs. apply link_matches_occurs.
  exists (before ++ b), (a ++ after). by rewrite <- !app_assoc.
Qed.

Lemma match_anywhere_witness :
  link_matches (py "12") (link_to "12") = true ∧
  link_matches (py "12") (py "merged: " ++ link_to "12" ++ py " (thanks)") = true.
Proof.
  assert (link_matches (py "12") (link_to "12") = true) as H by (by vm_compute).
  split; [exact H|].
  exact (match_anywhere (py "12") _ (py "merged: ") (py " (thanks)") H).
Defined.

(** X15: the dot of [github\.com] in the pattern stands for a dot only: the
    link written with any other character in its place is not a match,
    whatever the number is. *)
Theorem host_dot_is_literal pr_number c :
  c ≠ ord "." →
  link_matches pr_number
    (py "https://github" ++ c :: py "com/leanprover-community/mathlib4/pull/"
       ++ pr_number) = false.
Proof.
  intros Hc. apply not_true_is_false. intros H.
  apply link_matches_occurs in H as (before & after & H).
  assert (length before = 0 ∧ length after = 0)%nat as [Hb Ha].
  { apply (f_equal length) in H. rewrite !length_app in H. cbn [length] in H.
    rewrite !length_app in H. vm_compute (length (py _)) in H.
    vm_compute (length pull_url) in H. lia. }
  apply nil_length_inv in Hb, Ha. subst before after.
  rewrite app_nil_l in H. vm_compute in H. by injection H as ->.
Qed.

Lemma host_dot_is_literal_witness :
  ord "x" ≠ ord "." ∧
  link_matches (py "12")
    (py "https://github" ++ ord "x" :: py "com/leanprover-community/mathlib4/pull/"
       ++ py "12") = false.
Proof.
  assert (ord "x" ≠ ord ".") as H by (by vm_compute).
  split; [exact H|].
  exact (host_dot_is_literal (py "12") (ord "x") H).
Defined.
